(** * notes-api: the Notes CRUD services and controllers

    Shallow embedding of the two NestJS implementations of the notes feature:

    - [modules_notes]: src/modules/notes (string ids, title filter, explicit
      [NotFoundException]);
    - [notes]: src/notes (numeric ids, no existence checks).

    Both services run against a TypeORM [Repository<Note>] over the SQLite
    data source declared in database.config.ts.  The repository is a library
    collaborator; [Repository] below models the part of its contract the
    services call, over a table keyed by primary key.

    The entity and the create/update DTOs are declared in files that are not
    part of the source at hand.  Notes and payloads are therefore attribute
    bags, every attribute of a payload counts as a column, and a row holds
    the attributes it was given (no column defaults). *)

From Stdlib Require Import ZArith String Ascii List Bool Lia.
From stdpp Require Import gmap strings pretty list fin_maps.

Local Open Scope string_scope.
Local Open Scope Z_scope.

(** ** JavaScript values and objects *)

(** The values of note attributes: texts and integers.  A JS number is an
    integer here; ids are. *)
Inductive value :=
  | VString (s : string)
  | VNumber (z : Z).

#[global] Instance value_eq_dec : EqDecision value.
Proof. solve_decision. Defined.

#[global] Instance value_countable : Countable value.
Proof.
  refine (inj_countable'
    (λ v, match v with VString s => inl s | VNumber z => inr z end)
    (λ x, match x with inl s => VString s | inr z => VNumber z end) _).
  by intros [].
Defined.

(** A plain JS object: own enumerable properties by name.  DTOs
    ([CreateNoteDto], [UpdateNoteDto], [Partial<Note>]) and [Note] entities
    are such attribute bags; the primary key lives under ["id"]. *)
Abbreviation object := (gmap string value).

(** [Object.assign(target, source)]: every own property of [source] is
    written over [target]; the other properties of [target] stay. *)
Definition Object_assign (target source : object) : object := source ∪ target.

(** The specification's merge, field by field: [res] has the value of [u]
    on every field [u] has, and the value of [n] on every other field. *)
Definition merged (n u res : object) : Prop :=
  ∀ f, (is_Some (u !! f) → res !! f = u !! f) ∧ (u !! f = None → res !! f = n !! f).

(** ** Promises over the table *)

(** The [note] table: primary key to the remaining columns of the row. *)
Abbreviation Table := (gmap value object).

Inductive exception :=
  | NotFoundException (message : string)
  | QueryFailedError
  | UpdateValuesMissingError.

Inductive settled (A : Type) :=
  | Fulfilled (a : A)
  | Rejected (e : exception).
Arguments Fulfilled {A} a.
Arguments Rejected {A} e.

(** An async computation: it starts from a table and settles, leaving the
    table it wrote. *)
Definition Promise (A : Type) : Type := Table → settled A * Table.

Definition resolve {A} (a : A) : Promise A := λ t, (Fulfilled a, t).
Definition throw {A} (e : exception) : Promise A := λ t, (Rejected e, t).

(** [await]: a rejection propagates, with whatever was written before it. *)
Definition await {A B} (p : Promise A) (k : A → Promise B) : Promise B :=
  λ t, match p t with
       | (Fulfilled a, t') => k a t'
       | (Rejected e, t') => (Rejected e, t')
       end.

#[global] Instance Promise_ret : MRet Promise := @resolve.
#[global] Instance Promise_bind : MBind Promise := λ A B k p, await p k.

(** ** SQLite [LIKE] *)

(** SQLite folds the ASCII letters before comparing in [LIKE]. *)
Definition to_lower (c : ascii) : ascii :=
  let n := nat_of_ascii c in
  if ((65 <=? n) && (n <=? 90))%nat then ascii_of_nat (n + 32) else c.

Definition nocase_eqb (c d : ascii) : bool := Ascii.eqb (to_lower c) (to_lower d).

(** [any_suffix f s]: [f] accepts [s] or one of its proper suffixes. *)
Fixpoint any_suffix (f : string → bool) (s : string) : bool :=
  f s || match s with
         | EmptyString => false
         | String _ s' => any_suffix f s'
         end.

(** [like p s] is [s LIKE p]: [%] matches any run of characters, [_] any single
    character, every other character itself up to ASCII case. *)
Fixpoint like (p s : string) : bool :=
  match p with
  | EmptyString => match s with EmptyString => true | String _ _ => false end
  | String c p' =>
      if Ascii.eqb c "%" then any_suffix (like p') s
      else match s with
           | EmptyString => false
           | String d s' => (Ascii.eqb c "_" || nocase_eqb c d) && like p' s'
           end
  end.





Fixpoint lower (s : string) : string :=
  match s with
  | EmptyString => EmptyString
  | String c s' => String (to_lower c) (lower s')
  end.



(** JS truthiness of an optional string: [undefined] and [""] are falsy. *)
Definition truthy (s : option string) : bool :=
  match s with
  | Some s => negb (String.eqb s "")
  | None => false
  end.

(** The double quote character, for messages. *)
Definition dquote : string := String "034" EmptyString.

(** ** The TypeORM repository of [Note] *)

Module Repository.

(** The entity read from the row stored under primary key [id]. *)
Definition entity (id : value) (row : object) : object := <["id" := id]> row.

Definition entities (t : Table) : list object :=
  (λ kr, entity kr.1 kr.2) <$> map_to_list t.

Definition numbers (ks : list value) : list Z :=
  omap (λ k, match k with VNumber z => Some z | VString _ => None end) ks.

Definition strings (ks : list value) : list string :=
  omap (λ k, match k with VString s => Some s | VNumber _ => None end) ks.

(** A note is persisted when some row of the table reads as it. *)
Definition persisted (t : Table) (n : object) : Prop :=
  ∃ id row, t !! id = Some row ∧ n = entity id row.

(** The generation strategy of the primary column. *)
Inductive strategy := increment | uuid.

(** Modelled from the spec: the entity declaration (entities/note.entity.ts)
    is not in the source.  The spec has the id assigned by the store at
    creation, an auto-incrementing integer in one variant and a generated
    string identifier in the other.  The integer is one more than the
    largest in use, from 1; the string is any string no row uses yet. *)
Definition generated (s : strategy) (t : Table) : value :=
  match s with
  | increment => VNumber (1 + foldr Z.max 0 (numbers (map_to_list t).*1))
  | uuid => VString (fresh (strings (map_to_list t).*1))
  end.

(** [repository.create(dto)]: a new entity instance with the properties of
    [dto]; nothing is written. *)
Definition create (dto : object) : object := dto.

(** [repository.save(entity)]: without a primary key the row is inserted
    under a generated one, which is set on the entity; with a primary key
    the row is inserted, or the columns the entity has are updated on the
    row already there.  The entity comes back. *)
Definition save (s : strategy) (e : object) : Promise object :=
  λ t, match e !! "id" with
       | Some id => (Fulfilled e, <[id := delete "id" e ∪ default ∅ (t !! id)]> t)
       | None => let id := generated s t in (Fulfilled (entity id e), <[id := e]> t)
       end.

(** [repository.find()]. *)
Definition find : Promise (list object) := λ t, (Fulfilled (entities t), t).

(** [repository.findOneBy({ id })]: the entity or [null]. *)
Definition findOneBy (id : value) : Promise (option object) :=
  λ t, (Fulfilled (entity id <$> t !! id), t).

(** [repository.findOne({ where: { id } })]. *)
Definition findOne (id : value) : Promise (option object) := findOneBy id.

(** [repository.update(id, partial)]: [UPDATE note SET partial WHERE id];
    the number of rows affected.  TypeORM refuses to build an update that
    sets nothing.  A primary key in [partial] moves the row, and the
    statement fails when another row has that key. *)
Definition update (id : value) (partial : object) : Promise nat :=
  λ t, if bool_decide (partial = ∅) then (Rejected UpdateValuesMissingError, t)
       else match t !! id with
            | None => (Fulfilled 0%nat, t)
            | Some row =>
                let id' := default id (partial !! "id") in
                if bool_decide (id' ≠ id) && bool_decide (is_Some (t !! id'))
                then (Rejected QueryFailedError, t)
                else (Fulfilled 1%nat, <[id' := delete "id" partial ∪ row]> (delete id t))
            end.

(** [repository.delete(id)]: [DELETE FROM note WHERE id]; rows affected. *)
Definition delete (id : value) : Promise nat :=
  λ t, (Fulfilled (match t !! id with Some _ => 1%nat | None => 0%nat end), base.delete id t).

(** [repository.remove(entity)]: deletes the row of the entity's primary
    key; the entity comes back without it. *)
Definition remove (e : object) : Promise object :=
  λ t, match e !! "id" with
       | Some id => (Fulfilled (base.delete "id" e), base.delete id t)
       | None => (Fulfilled e, t)
       end.

(** The select query builder: the conjunction of its conditions. *)
Inductive condition := LIKE (column pattern : string).

Record SelectQueryBuilder := { wheres : list condition }.

Definition createQueryBuilder : SelectQueryBuilder := {| wheres := [] |}.

Definition andWhere (c : condition) (q : SelectQueryBuilder) : SelectQueryBuilder :=
  {| wheres := wheres q ++ [c] |}.

(** A [LIKE] on a column that is not a text (or is NULL) does not hold. *)
Definition holds (e : object) (c : condition) : bool :=
  match c with
  | LIKE column pattern =>
      match e !! column with
      | Some (VString s) => like pattern s
      | _ => false
      end
  end.

Definition getMany (q : SelectQueryBuilder) : Promise (list object) :=
  λ t, (Fulfilled (List.filter (λ e, forallb (holds e) (wheres q)) (entities t)), t).

End Repository.

(** ** src/modules/notes *)

Module modules_notes.

Record FilterNoteDto := { title : option string }.

Module NotesService.

Definition notesRepository : Repository.strategy := Repository.uuid.

Definition create (createNoteDto : object) : Promise object :=
  let note := Repository.create createNoteDto in
  Repository.save notesRepository note.

Definition findAll (filterNoteDto : FilterNoteDto) : Promise (list object) :=
  let query := Repository.createQueryBuilder in
  let query :=
    if truthy (title filterNoteDto)
    then Repository.andWhere
           (Repository.LIKE "title" ("%" +:+ default "" (title filterNoteDto) +:+ "%"))
           query
    else query in
  Repository.getMany query.

(** The text of the exception: the id between double quotes. *)
Definition message (id : string) : string :=
  "Note with ID " +:+ dquote +:+ id +:+ dquote +:+ " not found.".

Definition findOne (id : string) : Promise object :=
  note ← Repository.findOneBy (VString id);
  match note with
  | None => throw (NotFoundException (message id))
  | Some note => resolve note
  end.

Definition update (id : string) (updateNoteDto : object) : Promise object :=
  note ← findOne id;
  let note := Object_assign note updateNoteDto in
  Repository.save notesRepository note.

Definition remove (id : string) : Promise () :=
  note ← findOne id;
  _ ← Repository.remove note;
  resolve ().

End NotesService.

Module NotesController.

Definition create (createNoteDto : object) : Promise object :=
  NotesService.create createNoteDto.

Definition findAll (filterNoteDto : FilterNoteDto) : Promise (list object) :=
  NotesService.findAll filterNoteDto.

Definition findOne (id : string) : Promise object :=
  NotesService.findOne id.

Definition update (id : string) (updateNoteDto : object) : Promise object :=
  NotesService.update id updateNoteDto.

Definition remove (id : string) : Promise () :=
  NotesService.remove id.

End NotesController.

End modules_notes.

(** ** src/notes *)

Module notes.

Module NotesService.

Definition notesRepository : Repository.strategy := Repository.increment.

Definition findAll : Promise (list object) := Repository.find.

(** Resolves to [null] ([None]) when no row has the id. *)
Definition findOne (id : Z) : Promise (option object) :=
  Repository.findOne (VNumber id).

Definition create (note : object) : Promise object :=
  let newNote := Repository.create note in
  Repository.save notesRepository newNote.

Definition update (id : Z) (note : object) : Promise (option object) :=
  _ ← Repository.update (VNumber id) note;
  findOne id.

Definition remove (id : Z) : Promise () :=
  _ ← Repository.delete (VNumber id);
  resolve ().

End NotesService.

Module NotesController.
Section Routes.

(** [+id], the unary plus on the path parameter.  Ids are integers
    here; the conversion itself is the language's. *)
Variable Number : string → Z.

Definition findAll : Promise (list object) := NotesService.findAll.

Definition findOne (id : string) : Promise (option object) :=
  NotesService.findOne (Number id).

Definition create (note : object) : Promise object :=
  NotesService.create note.

Definition update (id : string) (note : object) : Promise (option object) :=
  NotesService.update (Number id) note.

Definition remove (id : string) : Promise () :=
  NotesService.remove (Number id).

End Routes.
End NotesController.

End notes.

(** ** src/code-flow.md, section 2.3 *)

(** The service the guide of the repository gives for the notes module:
    numeric ids, like src/notes, and a [findOne] that throws. *)
Module code_flow.

Module NotesService.
Section Messages.

(** The text a number takes in a template literal. *)
Variable ToString : Z → string.

Definition notesRepository : Repository.strategy := Repository.increment.

Definition findAll : Promise (list object) := Repository.find.

Definition message (id : Z) : string :=
  "Note with ID " +:+ ToString id +:+ " not found".

Definition findOne (id : Z) : Promise object :=
  note ← Repository.findOne (VNumber id);
  match note with
  | None => throw (NotFoundException (message id))
  | Some note => resolve note
  end.

Definition create (createNoteDto : object) : Promise object :=
  let note := Repository.create createNoteDto in
  Repository.save notesRepository note.

Definition update (id : Z) (updateNoteDto : object) : Promise object :=
  _ ← Repository.update (VNumber id) updateNoteDto;
  findOne id.

Definition remove (id : Z) : Promise object :=
  note ← findOne id;
  Repository.remove note.

End Messages.
End NotesService.

End code_flow.

(** ** Title filters made of one wildcard *)


(** ** Reading outcomes, and sample data *)

(** The promise [p], started on [t], is rejected with a [NotFoundException]. *)
Definition fails_NotFound {A} (p : Promise A) (t : Table) : Prop :=
  ∃ message t', p t = (Rejected (NotFoundException message), t').

Definition groceries : object :=
  {[ "title" := VString "shopping"; "content" := VString "milk" ]}.

(** One note, under the string id ["0"] and under the numeric id [1]. *)
Definition strict_table : Table := {[ VString "0" := groceries ]}.
Definition lax_table : Table := {[ VNumber 1 := groceries ]}.


(** * Properties *)

(** ** [LIKE] with a wildcard-free needle is substring search *)

Section Like.


Lemma append_cons (c : ascii) (a b : string) :
  String c a +:+ b = String c (a +:+ b).
Proof. reflexivity. Qed.

Lemma any_suffix_ext (f g : string → bool) (s : string) :
  (∀ x, f x = g x) → any_suffix f s = any_suffix g s.
Proof.
  intros Hfg. induction s as [|c s IH]; simpl.
  - by rewrite Hfg.
  - by rewrite Hfg, IH.
Qed.





End Like.

(** ** Substring search, as a property *)

Section Substring.




End Substring.

(** ** The repository *)

Section RepositoryFacts.

Import Repository.

Lemma entity_id (id : value) (row : object) : entity id row !! "id" = Some id.
Proof. apply lookup_insert_eq. Qed.

Lemma entity_field (id : value) (row : object) (f : string) :
  f ≠ "id" → entity id row !! f = row !! f.
Proof. intros Hf. unfold entity. by rewrite lookup_insert_ne. Qed.

Lemma elem_of_entities (t : Table) (n : object) :
  n ∈ entities t ↔ persisted t n.
Proof.
  unfold entities, persisted. rewrite list_elem_of_fmap. split.
  - intros ([id row] & -> & Hin%elem_of_map_to_list). by exists id, row.
  - intros (id & row & Hrow & ->). exists (id, row). split; [done|].
    by apply elem_of_map_to_list.
Qed.

(** A persisted note is the row under its own id. *)
Lemma persisted_id (t : Table) (n : object) (id : value) :
  persisted t n → n !! "id" = Some id →
  ∃ row, t !! id = Some row ∧ n = entity id row.
Proof.
  intros (id' & row & Hrow & ->) Hid. rewrite entity_id in Hid.
  injection Hid as ->. by exists row.
Qed.

Lemma numbers_bound (ks : list value) (z : Z) :
  VNumber z ∈ ks → z ≤ foldr Z.max 0 (numbers ks).
Proof.
  induction ks as [|k ks IH]; [by intros ?%elem_of_nil|].
  intros [<-|Hin]%elem_of_cons; simpl.
  - lia.
  - specialize (IH Hin). destruct k; simpl; lia.
Qed.

Lemma strings_elem (ks : list value) (s : string) :
  VString s ∈ ks → s ∈ strings ks.
Proof.
  intros Hin. unfold strings. apply list_elem_of_omap. by exists (VString s).
Qed.

(** The generated primary key is one no row uses. *)
Lemma generated_fresh (s : strategy) (t : Table) : t !! generated s t = None.
Proof.
  destruct (t !! generated s t) as [row|] eqn:Hrow; [exfalso|done].
  assert (generated s t ∈ (map_to_list t).*1) as Hin.
  { apply list_elem_of_fmap. exists (generated s t, row).
    split; [done|]. by apply elem_of_map_to_list. }
  destruct s; simpl in Hin.
  - apply numbers_bound in Hin. lia.
  - apply strings_elem in Hin. by apply infinite_is_fresh in Hin.
Qed.

End RepositoryFacts.

(** ** Object.assign *)

Section Objects.

Lemma Object_assign_merged (n u : object) : merged n u (Object_assign n u).
Proof.
  intros f. unfold Object_assign. split.
  - intros [v Hv]. rewrite Hv. by apply lookup_union_Some_l.
  - intros Hu. by apply lookup_union_r.
Qed.

(** The merge of the specification is the one object [Object.assign] builds. *)
Lemma merged_unique (n u res : object) : merged n u res → res = Object_assign n u.
Proof.
  intros Hres. apply map_eq. intros f.
  destruct (Hres f) as [Hu Hn], (Object_assign_merged n u f) as [Hu' Hn'].
  destruct (u !! f) as [v|] eqn:Huf.
  - by rewrite Hu, Hu'.
  - by rewrite Hn, Hn'.
Qed.

End Objects.

(** ** src/modules/notes: what each service method evaluates to *)

Section StrictService.

Import Repository modules_notes.NotesService.

Lemma strict_findOne_absent (t : Table) (id : string) :
  t !! VString id = None →
  findOne id t = (Rejected (NotFoundException (message id)), t).
Proof.
  intros Hid. unfold findOne, mbind, Promise_bind, await, findOneBy.
  by rewrite Hid.
Qed.

Lemma strict_findOne_present (t : Table) (id : string) (row : object) :
  t !! VString id = Some row →
  findOne id t = (Fulfilled (entity (VString id) row), t).
Proof.
  intros Hid. unfold findOne, mbind, Promise_bind, await, findOneBy.
  by rewrite Hid.
Qed.

Lemma strict_update_absent (t : Table) (id : string) (u : object) :
  t !! VString id = None →
  update id u t = (Rejected (NotFoundException (message id)), t).
Proof.
  intros Hid. unfold update, mbind, Promise_bind, await.
  by rewrite strict_findOne_absent.
Qed.

Lemma Object_assign_id (id : value) (row u : object) :
  Object_assign (entity id row) u !! "id" = Some (default id (u !! "id")).
Proof.
  unfold Object_assign. rewrite lookup_union, entity_id.
  by destruct (u !! "id").
Qed.

Lemma strict_update_present (t : Table) (id : string) (row u : object) :
  t !! VString id = Some row →
  update id u t =
    (Fulfilled (Object_assign (entity (VString id) row) u),
     <[default (VString id) (u !! "id") :=
         base.delete "id" (Object_assign (entity (VString id) row) u)
         ∪ default ∅ (t !! default (VString id) (u !! "id"))]> t).
Proof.
  intros Hid. unfold update, mbind, Promise_bind, await.
  rewrite (strict_findOne_present _ _ row) by done.
  unfold save. by rewrite Object_assign_id.
Qed.

Lemma strict_remove_absent (t : Table) (id : string) :
  t !! VString id = None →
  remove id t = (Rejected (NotFoundException (message id)), t).
Proof.
  intros Hid. unfold remove, mbind, Promise_bind, await.
  by rewrite strict_findOne_absent.
Qed.

Lemma strict_remove_present (t : Table) (id : string) (row : object) :
  t !! VString id = Some row →
  remove id t = (Fulfilled (), base.delete (VString id) t).
Proof.
  intros Hid. unfold remove, mbind, Promise_bind, await.
  rewrite (strict_findOne_present _ _ row) by done.
  unfold Repository.remove. by rewrite entity_id.
Qed.

End StrictService.

(** ** src/notes: what each service method evaluates to *)

Section LaxService.

Import Repository notes.NotesService.

Lemma lax_findOne (t : Table) (id : Z) :
  findOne id t = (Fulfilled (entity (VNumber id) <$> t !! VNumber id), t).
Proof. reflexivity. Qed.


Lemma lax_update_empty (t : Table) (id : Z) :
  update id ∅ t = (Rejected UpdateValuesMissingError, t).
Proof. reflexivity. Qed.

(** The row read back after an [UPDATE] that leaves the primary key alone. *)
Lemma entity_updated (id : value) (row u : object) :
  u !! "id" = None ∨ u !! "id" = Some id →
  entity id (base.delete "id" u ∪ row) = Object_assign (entity id row) u.
Proof.
  intros Hu. apply map_eq. intros f. unfold Object_assign.
  destruct (decide (f = "id")) as [->|Hf].
  - rewrite entity_id, lookup_union, entity_id. by destruct Hu as [-> | ->].
  - rewrite entity_field, !lookup_union, entity_field by done.
    by rewrite lookup_delete_ne.
Qed.

Lemma lax_update_present (t : Table) (id : Z) (row u : object) :
  u ≠ ∅ →
  t !! VNumber id = Some row →
  u !! "id" = None ∨ u !! "id" = Some (VNumber id) →
  update id u t =
    (Fulfilled (Some (Object_assign (entity (VNumber id) row) u)),
     <[VNumber id := base.delete "id" u ∪ row]> t).
Proof.
  intros Hne Hid Hu. unfold update, mbind, Promise_bind, await, Repository.update.
  rewrite bool_decide_eq_false_2 by done. rewrite Hid.
  assert (default (VNumber id) (u !! "id") = VNumber id) as ->.
  { by destruct Hu as [-> | ->]. }
  rewrite bool_decide_eq_false_2 by (by intros []). cbn [andb].
  rewrite insert_delete_eq, lax_findOne, lookup_insert_eq. cbn [fmap option_fmap option_map].
  by rewrite entity_updated.
Qed.

Lemma lax_update_not_NotFound (t t' : Table) (id : Z) (u : object) (message : string) :
  update id u t ≠ (Rejected (NotFoundException message), t').
Proof.
  unfold update, mbind, Promise_bind, await, Repository.update.
  repeat case_match; simplify_eq; rewrite ?lax_findOne; congruence.
Qed.

Lemma lax_remove (t : Table) (id : Z) :
  remove id t = (Fulfilled (), base.delete (VNumber id) t).
Proof. reflexivity. Qed.

End LaxService.

(** ** Listing *)

Section Listing.

Import Repository.

Lemma filter_all {A} (l : list A) : List.filter (λ _, true) l = l.
Proof. induction l as [|x l IH]; simpl; by rewrite ?IH. Qed.

Lemma getMany_unconditional (t : Table) :
  getMany createQueryBuilder t = (Fulfilled (entities t), t).
Proof. unfold getMany. simpl. by rewrite filter_all. Qed.



End Listing.

(** ** The scenario of the specification, on src/modules/notes *)

(** A note titled [shopping] is created under the first generated id, the
    filter [shop] lists it, and once it is removed reading it fails. *)
Example shopping_scenario :
  (note ← modules_notes.NotesService.create {[ "title" := VString "shopping" ]};
   listed ← modules_notes.NotesService.findAll {| modules_notes.title := Some "shop" |};
   _ ← modules_notes.NotesService.remove "0";
   resolve (note, listed)) ∅
  = (Fulfilled ({[ "id" := VString "0"; "title" := VString "shopping" ]},
                [ {[ "id" := VString "0"; "title" := VString "shopping" ]} ]), ∅)
  ∧ modules_notes.NotesService.findOne "0" ∅
    = (Rejected (NotFoundException (modules_notes.NotesService.message "0")), ∅).
Proof. split; [vm_compute; reflexivity | reflexivity]. Qed.

(** * The claims *)

(** ** Ids that are not in the store *)




(** ** Updating *)

(** C2, as stated, fails on src/notes: note 1 is persisted, the payload
    [{id: 2}] moves its row to id 2, and the read by the old id that ends
    [update] finds nothing, so no merged note comes back.  The empty payload
    yields no note either: the repository refuses the update. *)
Lemma update_merges_counterexample :
  Repository.persisted lax_table (Repository.entity (VNumber 1) groceries)
  ∧ notes.NotesService.update 1 {[ "id" := VNumber 2 ]} lax_table
    = (Fulfilled None, {[ VNumber 2 := groceries ]})
  ∧ (¬ ∃ res t',
         notes.NotesService.update 1 {[ "id" := VNumber 2 ]} lax_table
           = (Fulfilled (Some res), t')
         ∧ merged (Repository.entity (VNumber 1) groceries) {[ "id" := VNumber 2 ]} res)
  ∧ notes.NotesService.update 1 ∅ lax_table
    = (Rejected UpdateValuesMissingError, lax_table).
Proof.
  split; [by exists (VNumber 1), groceries|].
  assert (notes.NotesService.update 1 {[ "id" := VNumber 2 ]} lax_table
          = (Fulfilled None, {[ VNumber 2 := groceries ]})) as Hrun.
  { vm_compute. reflexivity. }
  split; [exact Hrun|]. split; [|reflexivity].
  intros (res & t' & Hres & _). rewrite Hrun in Hres. discriminate.
Qed.

(** C2, amended: for every persisted note [n], [update(n.id, u)] yields a
    note whose fields present in [u] have [u]'s values and whose other
    fields have [n]'s, for every payload [u] in src/modules/notes, and in
    src/notes for every payload [u] that sets something and has no id field
    or has [n]'s id. *)
Theorem update_merges (tA tB : Table) (nA nB uA uB : object) (s : string) (z : Z) :
  Repository.persisted tA nA → nA !! "id" = Some (VString s) →
  Repository.persisted tB nB → nB !! "id" = Some (VNumber z) →
  uB ≠ ∅ →
  uB !! "id" = None ∨ uB !! "id" = Some (VNumber z) →
  (∃ res t', modules_notes.NotesService.update s uA tA = (Fulfilled res, t')
             ∧ merged nA uA res)
  ∧ (∃ res t', notes.NotesService.update z uB tB = (Fulfilled (Some res), t')
               ∧ merged nB uB res).
Proof.
  intros HnA HsA HnB HzB HneB HuB.
  destruct (persisted_id _ _ _ HnA HsA) as (rowA & HrowA & ->).
  destruct (persisted_id _ _ _ HnB HzB) as (rowB & HrowB & ->).
  split.
  - eexists _, _. split; [by apply strict_update_present|].
    apply Object_assign_merged.
  - eexists _, _. split; [by apply lax_update_present|].
    apply Object_assign_merged.
Qed.

Lemma update_merges_witness :
  (∃ res t', modules_notes.NotesService.update "0" {[ "title" := VString "list" ]} strict_table
             = (Fulfilled res, t')
             ∧ merged (Repository.entity (VString "0") groceries)
                 {[ "title" := VString "list" ]} res)
  ∧ (∃ res t', notes.NotesService.update 1 {[ "title" := VString "list" ]} lax_table
               = (Fulfilled (Some res), t')
               ∧ merged (Repository.entity (VNumber 1) groceries)
                   {[ "title" := VString "list" ]} res).
Proof.
  apply (update_merges strict_table lax_table).
  - by exists (VString "0"), groceries.
  - reflexivity.
  - by exists (VNumber 1), groceries.
  - reflexivity.
  - discriminate.
  - left. reflexivity.
Defined.

(** C6, as stated, fails in both services.  In src/modules/notes, with the
    payload [{id: '9'}], [Object.assign] overwrites the id of the note read
    under ["0"], and the note that comes back has id ["9"].  In src/notes,
    with the payload [{id: 2}], the row of note 1 is moved: afterwards the
    note is read under id 2 and nothing is under id 1. *)
Lemma update_keeps_id_counterexample :
  (Repository.persisted strict_table (Repository.entity (VString "0") groceries)
   ∧ ∃ res t',
       modules_notes.NotesService.update "0" {[ "id" := VString "9" ]} strict_table
         = (Fulfilled res, t')
       ∧ res !! "id" = Some (VString "9")
       ∧ res !! "id" ≠ Repository.entity (VString "0") groceries !! "id")
  ∧ (Repository.persisted lax_table (Repository.entity (VNumber 1) groceries)
     ∧ ∃ t',
         notes.NotesService.update 1 {[ "id" := VNumber 2 ]} lax_table
           = (Fulfilled None, t')
         ∧ notes.NotesService.findOne 1 t' = (Fulfilled None, t')
         ∧ notes.NotesService.findOne 2 t'
           = (Fulfilled (Some (Repository.entity (VNumber 2) groceries)), t')).
Proof.
  split.
  - split; [by exists (VString "0"), groceries|].
    eexists _, _. split; [by apply (strict_update_present _ _ groceries)|].
    rewrite Object_assign_id, entity_id. split; [reflexivity|]. discriminate.
  - split; [by exists (VNumber 1), groceries|].
    exists {[ VNumber 2 := groceries ]}.
    split; [vm_compute; reflexivity|]. split; reflexivity.
Qed.

(** C6, amended: for every persisted note [n] and every payload [u] that
    has no id field, or whose id field is [n]'s id (and, in src/notes, that
    sets something), the note resulting from [update(n.id, u)] has the id
    of [n], in both services. *)
Theorem update_keeps_id (tA tB : Table) (nA nB uA uB : object) (s : string) (z : Z) :
  Repository.persisted tA nA → nA !! "id" = Some (VString s) →
  Repository.persisted tB nB → nB !! "id" = Some (VNumber z) →
  uA !! "id" = None ∨ uA !! "id" = Some (VString s) →
  uB ≠ ∅ →
  uB !! "id" = None ∨ uB !! "id" = Some (VNumber z) →
  (∃ res t', modules_notes.NotesService.update s uA tA = (Fulfilled res, t')
             ∧ res !! "id" = nA !! "id")
  ∧ (∃ res t', notes.NotesService.update z uB tB = (Fulfilled (Some res), t')
               ∧ res !! "id" = nB !! "id").
Proof.
  intros HnA HsA HnB HzB HuA HneB HuB.
  destruct (persisted_id _ _ _ HnA HsA) as (rowA & HrowA & ->).
  destruct (persisted_id _ _ _ HnB HzB) as (rowB & HrowB & ->).
  split.
  - eexists _, _. split; [by apply strict_update_present|].
    rewrite Object_assign_id, entity_id. by destruct HuA as [-> | ->].
  - eexists _, _. split; [by apply lax_update_present|].
    rewrite Object_assign_id, entity_id. by destruct HuB as [-> | ->].
Qed.

Lemma update_keeps_id_witness :
  (∃ res t', modules_notes.NotesService.update "0" {[ "title" := VString "list" ]} strict_table
             = (Fulfilled res, t')
             ∧ res !! "id" = Repository.entity (VString "0") groceries !! "id")
  ∧ (∃ res t', notes.NotesService.update 1 {[ "id" := VNumber 1 ]} lax_table
               = (Fulfilled (Some res), t')
               ∧ res !! "id" = Repository.entity (VNumber 1) groceries !! "id").
Proof.
  apply (update_keeps_id strict_table lax_table).
  - by exists (VString "0"), groceries.
  - reflexivity.
  - by exists (VNumber 1), groceries.
  - reflexivity.
  - left. reflexivity.
  - discriminate.
  - right. reflexivity.
Defined.

(** ** Creating and deleting *)

(** C4: for every attribute set [a] without an id of its own, [create(a)]
    returns [a] plus the id the store assigns, an id no row had, and
    [findOne] with that id yields the same note, in both services. *)
Theorem create_then_findOne (t : Table) (a : object) :
  a !! "id" = None →
  (∃ id t', t !! VString id = None
            ∧ modules_notes.NotesService.create a t
              = (Fulfilled (<["id" := VString id]> a), t')
            ∧ modules_notes.NotesService.findOne id t'
              = (Fulfilled (<["id" := VString id]> a), t'))
  ∧ (∃ id t', t !! VNumber id = None
              ∧ notes.NotesService.create a t
                = (Fulfilled (<["id" := VNumber id]> a), t')
              ∧ notes.NotesService.findOne id t'
                = (Fulfilled (Some (<["id" := VNumber id]> a)), t')).
Proof.
  intros Ha. split.
  - pose proof (generated_fresh Repository.uuid t) as Hfresh.
    destruct (Repository.generated Repository.uuid t) as [id|] eqn:Hid; [|done].
    exists id, (<[VString id := a]> t). split; [done|]. split.
    + unfold modules_notes.NotesService.create, Repository.create, Repository.save.
      rewrite Ha. unfold modules_notes.NotesService.notesRepository. by rewrite Hid.
    + apply strict_findOne_present, lookup_insert_eq.
  - pose proof (generated_fresh Repository.increment t) as Hfresh.
    destruct (Repository.generated Repository.increment t) as [|id] eqn:Hid; [done|].
    exists id, (<[VNumber id := a]> t). split; [done|]. split.
    + unfold notes.NotesService.create, Repository.create, Repository.save.
      rewrite Ha. unfold notes.NotesService.notesRepository. by rewrite Hid.
    + by rewrite lax_findOne, lookup_insert_eq.
Qed.

Lemma create_then_findOne_witness :
  groceries !! "id" = None
  ∧ ∃ id t', (∅ : Table) !! VNumber id = None
             ∧ notes.NotesService.create groceries ∅
               = (Fulfilled (<["id" := VNumber id]> groceries), t')
             ∧ notes.NotesService.findOne id t'
               = (Fulfilled (Some (<["id" := VNumber id]> groceries)), t').
Proof.
  split; [reflexivity|].
  apply (create_then_findOne ∅ groceries). reflexivity.
Defined.

(** C5, as stated, fails on src/notes: after [remove(1)] of the persisted
    note 1, [findOne(1)] resolves to [null]; no NotFound error is raised. *)
Lemma remove_then_findOne_counterexample :
  Repository.persisted lax_table (Repository.entity (VNumber 1) groceries)
  ∧ await (notes.NotesService.remove 1) (λ _, notes.NotesService.findOne 1) lax_table
    = (Fulfilled None, ∅)
  ∧ ¬ fails_NotFound
        (await (notes.NotesService.remove 1) (λ _, notes.NotesService.findOne 1))
        lax_table.
Proof.
  split; [by exists (VNumber 1), groceries|].
  assert (await (notes.NotesService.remove 1) (λ _, notes.NotesService.findOne 1) lax_table
          = (Fulfilled None, ∅)) as Hrun by (vm_compute; reflexivity).
  split; [exact Hrun|].
  intros (message & t' & Hfail). rewrite Hrun in Hfail. discriminate.
Qed.

(** C5, amended: for every persisted note [n], [remove(n.id)] succeeds and a
    following [findOne(n.id)] no longer finds the note: in src/modules/notes
    it fails with NotFound, in src/notes it resolves to [null]. *)
Theorem remove_then_findOne (tA tB : Table) (nA nB : object) (s : string) (z : Z) :
  Repository.persisted tA nA → nA !! "id" = Some (VString s) →
  Repository.persisted tB nB → nB !! "id" = Some (VNumber z) →
  (∃ t', modules_notes.NotesService.remove s tA = (Fulfilled (), t')
         ∧ modules_notes.NotesService.findOne s t'
           = (Rejected (NotFoundException (modules_notes.NotesService.message s)), t'))
  ∧ (∃ t', notes.NotesService.remove z tB = (Fulfilled (), t')
           ∧ notes.NotesService.findOne z t' = (Fulfilled None, t')).
Proof.
  intros HnA HsA HnB HzB.
  destruct (persisted_id _ _ _ HnA HsA) as (rowA & HrowA & ->).
  destruct (persisted_id _ _ _ HnB HzB) as (rowB & HrowB & ->).
  split.
  - eexists. split; [by apply (strict_remove_present _ _ rowA)|].
    apply strict_findOne_absent, lookup_delete_eq.
  - eexists. split; [apply lax_remove|].
    by rewrite lax_findOne, lookup_delete_eq.
Qed.

Lemma remove_then_findOne_witness :
  (∃ t', modules_notes.NotesService.remove "0" strict_table = (Fulfilled (), t')
         ∧ modules_notes.NotesService.findOne "0" t'
           = (Rejected (NotFoundException (modules_notes.NotesService.message "0")), t'))
  ∧ (∃ t', notes.NotesService.remove 1 lax_table = (Fulfilled (), t')
           ∧ notes.NotesService.findOne 1 t' = (Fulfilled None, t')).
Proof.
  apply (remove_then_findOne strict_table lax_table
           (Repository.entity (VString "0") groceries)
           (Repository.entity (VNumber 1) groceries)).
  - by exists (VString "0"), groceries.
  - reflexivity.
  - by exists (VNumber 1), groceries.
  - reflexivity.
Defined.

(** ** Listing with a title filter *)




(** C9: in src/modules/notes the empty title is falsy, no [LIKE] condition
    is added, and [findAll] returns what it returns with no title: every
    persisted note. *)
Theorem findAll_empty_title (t : Table) :
  modules_notes.NotesService.findAll {| modules_notes.title := Some "" |} t
    = modules_notes.NotesService.findAll {| modules_notes.title := None |} t
  ∧ modules_notes.NotesService.findAll {| modules_notes.title := Some "" |} t
    = (Fulfilled (Repository.entities t), t)
  ∧ ∀ n, n ∈ Repository.entities t ↔ Repository.persisted t n.
Proof.
  split; [reflexivity|]. split; [apply getMany_unconditional|].
  intros n. apply elem_of_entities.
Qed.

(** ** Failing writes *)

(** C7: when [update(i, u)] or [remove(i)] fails with NotFound, the table
    after the call is the table before it.  In src/modules/notes the
    failure is that of the [findOne] that comes first; in src/notes the two
    never fail with NotFound. *)
Theorem rejected_write_is_atomic
    (t t' : Table) (s : string) (z : Z) (u : object) (message : string) :
  modules_notes.NotesService.update s u t = (Rejected (NotFoundException message), t')
  ∨ modules_notes.NotesService.remove s t = (Rejected (NotFoundException message), t')
  ∨ notes.NotesService.update z u t = (Rejected (NotFoundException message), t')
  ∨ notes.NotesService.remove z t = (Rejected (NotFoundException message), t') →
  t' = t.
Proof.
  intros [Hrun|[Hrun|[Hrun|Hrun]]].
  - destruct (t !! VString s) as [row|] eqn:Hid.
    + by rewrite (strict_update_present _ _ row) in Hrun.
    + rewrite strict_update_absent in Hrun by done. congruence.
  - destruct (t !! VString s) as [row|] eqn:Hid.
    + by rewrite (strict_remove_present _ _ row) in Hrun.
    + rewrite strict_remove_absent in Hrun by done. congruence.
  - by apply lax_update_not_NotFound in Hrun.
  - by rewrite lax_remove in Hrun.
Qed.

Lemma rejected_write_is_atomic_witness :
  ∃ t', modules_notes.NotesService.remove "7" strict_table
        = (Rejected (NotFoundException (modules_notes.NotesService.message "7")), t')
        ∧ t' = strict_table.
Proof.
  eexists. split; [reflexivity|].
  apply (rejected_write_is_atomic strict_table strict_table "7" 7 ∅
           (modules_notes.NotesService.message "7")).
  right. left. reflexivity.
Defined.

(** ** Controllers *)

(** C8: every controller method is the one service call of the same name
    on the same arguments; in src/notes the path id goes through the
    conversion to a number first, and nothing else is done. *)
Theorem controllers_delegate
    (Number : string → Z) (id : string) (body : object)
    (filterNoteDto : modules_notes.FilterNoteDto) :
  (modules_notes.NotesController.create body = modules_notes.NotesService.create body
   ∧ modules_notes.NotesController.findAll filterNoteDto
     = modules_notes.NotesService.findAll filterNoteDto
   ∧ modules_notes.NotesController.findOne id = modules_notes.NotesService.findOne id
   ∧ modules_notes.NotesController.update id body
     = modules_notes.NotesService.update id body
   ∧ modules_notes.NotesController.remove id = modules_notes.NotesService.remove id)
  ∧ (notes.NotesController.findAll = notes.NotesService.findAll
     ∧ notes.NotesController.findOne Number id = notes.NotesService.findOne (Number id)
     ∧ notes.NotesController.create body = notes.NotesService.create body
     ∧ notes.NotesController.update Number id body
       = notes.NotesService.update (Number id) body
     ∧ notes.NotesController.remove Number id = notes.NotesService.remove (Number id)).
Proof. repeat split. Qed.

(** ** Deleting without a check *)



(** * Further properties of the services *)

(** ** Listing and reading agree *)

(** X1: a note is in the unfiltered listing, and carries a given id, exactly
    when [findOne] on that id returns it; in both services. *)
Theorem listed_iff_found (t : Table) (n : object) (s : string) (z : Z) :
  (∃ ns, modules_notes.NotesService.findAll {| modules_notes.title := None |} t
         = (Fulfilled ns, t)
         ∧ (n ∈ ns ∧ n !! "id" = Some (VString s)
            ↔ modules_notes.NotesService.findOne s t = (Fulfilled n, t)))
  ∧ (∃ ns, notes.NotesService.findAll t = (Fulfilled ns, t)
           ∧ (n ∈ ns ∧ n !! "id" = Some (VNumber z)
              ↔ notes.NotesService.findOne z t = (Fulfilled (Some n), t))).
Proof.
  split.
  - exists (Repository.entities t). split; [apply getMany_unconditional|].
    rewrite elem_of_entities. split.
    + intros [Hn Hid]. destruct (persisted_id _ _ _ Hn Hid) as (row & Hrow & ->).
      by apply strict_findOne_present.
    + intros Hfind. destruct (t !! VString s) as [row|] eqn:Hrow.
      * rewrite (strict_findOne_present _ _ row) in Hfind by done.
        injection Hfind as <-. split; [by exists (VString s), row|apply entity_id].
      * by rewrite strict_findOne_absent in Hfind.
  - exists (Repository.entities t). split; [reflexivity|].
    rewrite elem_of_entities, lax_findOne. split.
    + intros [Hn Hid]. destruct (persisted_id _ _ _ Hn Hid) as (row & Hrow & ->).
      by rewrite Hrow.
    + intros Hfind. destruct (t !! VNumber z) as [row|] eqn:Hrow; [|done].
      injection Hfind as <-. split; [by exists (VNumber z), row|apply entity_id].
Qed.

(** ** The title filter *)

Section TitleFilter.

Import Repository.








(** The title filter as the service builds it, on a non-empty title. *)
Lemma findAll_truthy (t : Table) (s : string) :
  s ≠ "" →
  modules_notes.NotesService.findAll {| modules_notes.title := Some s |} t
  = (Fulfilled
       (List.filter (λ e, forallb (holds e) [LIKE "title" ("%" +:+ s +:+ "%")])
          (entities t)), t).
Proof.
  intros Hs. unfold modules_notes.NotesService.findAll. cbn [modules_notes.title truthy].
  assert (String.eqb s "" = false) as -> by (by apply String.eqb_neq).
  reflexivity.
Qed.

End TitleFilter.






(** ** The filter and the case of letters *)

Section FilterCase.

Import Repository.

Lemma to_lower_idem (c : ascii) : to_lower (to_lower c) = to_lower c.
Proof. by destruct c as [[] [] [] [] [] [] [] []]. Qed.

Lemma to_lower_percent (c : ascii) : Ascii.eqb (to_lower c) "%" = Ascii.eqb c "%".
Proof. by destruct c as [[] [] [] [] [] [] [] []]. Qed.

Lemma to_lower_underscore (c : ascii) : Ascii.eqb (to_lower c) "_" = Ascii.eqb c "_".
Proof. by destruct c as [[] [] [] [] [] [] [] []]. Qed.

Lemma like_lower (p x : string) : like (lower p) x = like p x.
Proof.
  revert x. induction p as [|c p IH]; intros x; [done|].
  cbn [lower like]. rewrite to_lower_percent, to_lower_underscore.
  destruct (Ascii.eqb c "%").
  - by apply any_suffix_ext.
  - destruct x as [|d x]; [done|].
    unfold nocase_eqb. by rewrite to_lower_idem, IH.
Qed.

Lemma lower_app (a b : string) : lower (a +:+ b) = lower a +:+ lower b.
Proof.
  induction a as [|c a IH]; [done|].
  rewrite append_cons. cbn [lower]. by rewrite IH, append_cons.
Qed.

Lemma lower_empty (s : string) : lower s = "" ↔ s = "".
Proof. by destruct s. Qed.

(** The pattern of a title, up to case, is the pattern of its lower case. *)
Lemma like_title_lower (s x : string) :
  like ("%" +:+ s +:+ "%") x = like ("%" +:+ lower s +:+ "%") x.
Proof.
  rewrite <-(like_lower ("%" +:+ s +:+ "%")). by rewrite !lower_app.
Qed.

End FilterCase.

(** X5: two title filters that differ only in the case of ASCII letters
    return the same notes. *)
Theorem filter_ignores_case (t : Table) (s1 s2 : string) :
  lower s1 = lower s2 →
  modules_notes.NotesService.findAll {| modules_notes.title := Some s1 |} t
  = modules_notes.NotesService.findAll {| modules_notes.title := Some s2 |} t.
Proof.
  intros Hcase. destruct (decide (s1 = "")) as [->|Hs1].
  - symmetry in Hcase. apply (proj1 (lower_empty s2)) in Hcase. by subst s2.
  - assert (s2 ≠ "") as Hs2.
    { intros ->. by apply Hs1, (proj1 (lower_empty s1)). }
    rewrite !findAll_truthy by done. f_equal. f_equal.
    apply List.filter_ext. intros e. unfold Repository.holds. cbn [forallb].
    destruct (e !! "title") as [[x|]|]; [|done..].
    by rewrite (like_title_lower s1), (like_title_lower s2), Hcase.
Qed.

Lemma filter_ignores_case_witness :
  modules_notes.NotesService.findAll {| modules_notes.title := Some "Shop" |} strict_table
  = modules_notes.NotesService.findAll {| modules_notes.title := Some "sHOP" |} strict_table.
Proof. apply (filter_ignores_case strict_table "Shop" "sHOP"). reflexivity. Defined.

(** ** Creating and removing *)

Section CreateRemove.

Import Repository.

Lemma strict_create_fresh (t : Table) (a : object) :
  a !! "id" = None →
  ∃ s, t !! VString s = None
       ∧ modules_notes.NotesService.create a t
         = (Fulfilled (entity (VString s) a), <[VString s := a]> t).
Proof.
  intros Ha. pose proof (generated_fresh uuid t) as Hfresh.
  destruct (generated uuid t) as [s|] eqn:Hs; [|done].
  exists s. split; [done|].
  unfold modules_notes.NotesService.create, Repository.create, save.
  rewrite Ha. unfold modules_notes.NotesService.notesRepository. by rewrite Hs.
Qed.

Lemma lax_create_fresh (t : Table) (a : object) :
  a !! "id" = None →
  ∃ z, t !! VNumber z = None
       ∧ notes.NotesService.create a t
         = (Fulfilled (entity (VNumber z) a), <[VNumber z := a]> t).
Proof.
  intros Ha. pose proof (generated_fresh increment t) as Hfresh.
  destruct (generated increment t) as [|z] eqn:Hz; [done|].
  exists z. split; [done|].
  unfold notes.NotesService.create, Repository.create, save.
  rewrite Ha. unfold notes.NotesService.notesRepository. by rewrite Hz.
Qed.

Lemma persisted_insert (t : Table) (k : value) (row m : object) :
  t !! k = None →
  persisted (<[k := row]> t) m ↔ m = entity k row ∨ persisted t m.
Proof.
  intros Hk. unfold persisted. split.
  - intros (id & row' & [[<- <-]|[Hne Hrow]]%lookup_insert_Some & ->); [by left|].
    right. by exists id, row'.
  - intros [->|(id & row' & Hrow & ->)].
    + exists k, row. by rewrite lookup_insert_eq.
    + exists id, row'. split; [|done]. rewrite lookup_insert_ne; [done|].
      intros <-. congruence.
Qed.

Lemma persisted_delete (t : Table) (k : value) (m : object) :
  persisted (base.delete k t) m ↔ persisted t m ∧ m !! "id" ≠ Some k.
Proof.
  unfold persisted. split.
  - intros (id & row & [Hne Hrow]%lookup_delete_Some & ->). split; [by exists id, row|].
    rewrite entity_id. congruence.
  - intros [(id & row & Hrow & ->) Hid]. rewrite entity_id in Hid.
    exists id, row. split; [|done]. rewrite lookup_delete_ne; [done|]. congruence.
Qed.

Lemma fresh_not_persisted (t : Table) (k : value) (row : object) :
  t !! k = None → ¬ persisted t (entity k row).
Proof.
  intros Hk Hn. destruct (persisted_id _ _ k Hn (entity_id _ _)) as (row' & Hrow & _).
  congruence.
Qed.

End CreateRemove.

(** X6: [create] with an attribute set that has no id adds exactly one
    note: the note returned is new, every note persisted before is persisted
    after, unchanged, and nothing else is; in both services. *)
Theorem create_adds_one (t : Table) (a : object) :
  a !! "id" = None →
  (∃ n t', modules_notes.NotesService.create a t = (Fulfilled n, t')
           ∧ ¬ Repository.persisted t n
           ∧ (∀ m, Repository.persisted t' m ↔ m = n ∨ Repository.persisted t m)
           ∧ size t' = S (size t))
  ∧ (∃ n t', notes.NotesService.create a t = (Fulfilled n, t')
             ∧ ¬ Repository.persisted t n
             ∧ (∀ m, Repository.persisted t' m ↔ m = n ∨ Repository.persisted t m)
             ∧ size t' = S (size t)).
Proof.
  intros Ha. split.
  - destruct (strict_create_fresh t a Ha) as (s & Hs & Hrun).
    eexists _, _. split; [exact Hrun|]. split; [by apply fresh_not_persisted|].
    split; [intros m; by apply persisted_insert | by apply map_size_insert_None].
  - destruct (lax_create_fresh t a Ha) as (z & Hz & Hrun).
    eexists _, _. split; [exact Hrun|]. split; [by apply fresh_not_persisted|].
    split; [intros m; by apply persisted_insert | by apply map_size_insert_None].
Qed.

Lemma create_adds_one_witness :
  ∃ n t', notes.NotesService.create groceries lax_table = (Fulfilled n, t')
          ∧ ¬ Repository.persisted lax_table n
          ∧ (∀ m, Repository.persisted t' m ↔ m = n ∨ Repository.persisted lax_table m)
          ∧ size t' = S (size lax_table).
Proof. apply (create_adds_one lax_table groceries). reflexivity. Defined.

(** X7: removing the note [create] has just returned, by its assigned id,
    gives back the table as it was before the [create]; in both services. *)
Theorem create_then_remove (t : Table) (a : object) :
  a !! "id" = None →
  (∃ s n t', modules_notes.NotesService.create a t = (Fulfilled n, t')
             ∧ n !! "id" = Some (VString s)
             ∧ modules_notes.NotesService.remove s t' = (Fulfilled (), t))
  ∧ (∃ z n t', notes.NotesService.create a t = (Fulfilled n, t')
               ∧ n !! "id" = Some (VNumber z)
               ∧ notes.NotesService.remove z t' = (Fulfilled (), t)).
Proof.
  intros Ha. split.
  - destruct (strict_create_fresh t a Ha) as (s & Hs & Hrun).
    eexists s, _, _. split; [exact Hrun|]. split; [apply entity_id|].
    rewrite (strict_remove_present _ _ a) by apply lookup_insert_eq.
    by rewrite delete_insert_id.
  - destruct (lax_create_fresh t a Ha) as (z & Hz & Hrun).
    eexists z, _, _. split; [exact Hrun|]. split; [apply entity_id|].
    by rewrite lax_remove, delete_insert_id.
Qed.

Lemma create_then_remove_witness :
  ∃ s n t', modules_notes.NotesService.create groceries strict_table = (Fulfilled n, t')
            ∧ n !! "id" = Some (VString s)
            ∧ modules_notes.NotesService.remove s t' = (Fulfilled (), strict_table).
Proof. apply (create_then_remove strict_table groceries). reflexivity. Defined.

(** X8: in src/modules/notes a second [remove] of the same id is not a
    repeat of the first: the first succeeds, the second fails with NotFound
    and leaves the table as the first left it. *)
Theorem strict_remove_twice (t : Table) (s : string) (row : object) :
  t !! VString s = Some row →
  ∃ t', modules_notes.NotesService.remove s t = (Fulfilled (), t')
        ∧ modules_notes.NotesService.remove s t'
          = (Rejected (NotFoundException (modules_notes.NotesService.message s)), t').
Proof.
  intros Hrow. eexists. split; [by apply (strict_remove_present _ _ row)|].
  apply strict_remove_absent, lookup_delete_eq.
Qed.

Lemma strict_remove_twice_witness :
  ∃ t', modules_notes.NotesService.remove "0" strict_table = (Fulfilled (), t')
        ∧ modules_notes.NotesService.remove "0" t'
          = (Rejected (NotFoundException (modules_notes.NotesService.message "0")), t').
Proof. apply (strict_remove_twice strict_table "0" groceries). reflexivity. Defined.

(** X9: a successful [remove] takes away the note of the id and no other:
    the notes persisted afterwards are those persisted before whose id is
    another, and the table is one row shorter; in both services. *)
Theorem remove_takes_one (tA tB : Table) (s : string) (z : Z) (rowA rowB : object) :
  tA !! VString s = Some rowA →
  tB !! VNumber z = Some rowB →
  (∃ t', modules_notes.NotesService.remove s tA = (Fulfilled (), t')
         ∧ (∀ m, Repository.persisted t' m
                 ↔ Repository.persisted tA m ∧ m !! "id" ≠ Some (VString s))
         ∧ S (size t') = size tA)
  ∧ (∃ t', notes.NotesService.remove z tB = (Fulfilled (), t')
           ∧ (∀ m, Repository.persisted t' m
                   ↔ Repository.persisted tB m ∧ m !! "id" ≠ Some (VNumber z))
           ∧ S (size t') = size tB).
Proof.
  intros HA HB. split.
  - eexists. split; [by apply (strict_remove_present _ _ rowA)|].
    split; [intros m; apply persisted_delete|].
    rewrite map_size_delete, HA. apply Nat.succ_pred.
    intros Hsize. apply map_size_empty_inv in Hsize. by subst tA.
  - eexists. split; [apply lax_remove|].
    split; [intros m; apply persisted_delete|].
    rewrite map_size_delete, HB. apply Nat.succ_pred.
    intros Hsize. apply map_size_empty_inv in Hsize. by subst tB.
Qed.

Lemma remove_takes_one_witness :
  (∃ t', modules_notes.NotesService.remove "0" strict_table = (Fulfilled (), t')
         ∧ (∀ m, Repository.persisted t' m
                 ↔ Repository.persisted strict_table m ∧ m !! "id" ≠ Some (VString "0"))
         ∧ S (size t') = size strict_table)
  ∧ (∃ t', notes.NotesService.remove 1 lax_table = (Fulfilled (), t')
           ∧ (∀ m, Repository.persisted t' m
                   ↔ Repository.persisted lax_table m ∧ m !! "id" ≠ Some (VNumber 1))
           ∧ S (size t') = size lax_table).
Proof.
  apply (remove_takes_one strict_table lax_table "0" 1 groceries groceries); reflexivity.
Defined.

(** ** Updating *)

Section UpdateFacts.

Import Repository.

Lemma union_absorb (a b : object) : a ∪ (a ∪ b) = a ∪ b.
Proof.
  apply map_eq. intros f. rewrite !lookup_union.
  by destruct (a !! f), (b !! f).
Qed.

Lemma Object_assign_twice (n u : object) :
  Object_assign (Object_assign n u) u = Object_assign n u.
Proof. unfold Object_assign. apply union_absorb. Qed.

(** Whatever [a] has not, [b] has not: then [b] adds nothing under [a]. *)
Lemma union_skip (a b c : object) :
  (∀ f, a !! f = None → b !! f = None) → a ∪ (b ∪ c) = a ∪ c.
Proof.
  intros Hab. apply map_eq. intros f. rewrite !lookup_union.
  destruct (a !! f) eqn:Ha; [by destruct (b !! f), (c !! f)|].
  rewrite (Hab f Ha). by destruct (c !! f).
Qed.

(** The row [save] writes for a note merged under its own id reads back as
    the merged note. *)
Lemma entity_saved (k : value) (row u : object) :
  u !! "id" = None ∨ u !! "id" = Some k →
  entity k (base.delete "id" (Object_assign (entity k row) u) ∪ row)
  = Object_assign (entity k row) u.
Proof.
  intros Hu. apply map_eq. intros f. destruct (decide (f = "id")) as [->|Hf].
  - rewrite entity_id, Object_assign_id. by destruct Hu as [-> | ->].
  - rewrite entity_field, lookup_union, lookup_delete_ne by done.
    unfold Object_assign. rewrite lookup_union, entity_field by done.
    by destruct (u !! f), (row !! f).
Qed.

Lemma default_own_id (k : value) (u : object) :
  u !! "id" = None ∨ u !! "id" = Some k → default k (u !! "id") = k.
Proof. by intros [-> | ->]. Qed.

(** [update] of src/modules/notes on a payload that leaves the id alone. *)
Lemma strict_update_own_id (t : Table) (s : string) (row u : object) :
  t !! VString s = Some row →
  u !! "id" = None ∨ u !! "id" = Some (VString s) →
  modules_notes.NotesService.update s u t
  = (Fulfilled (Object_assign (entity (VString s) row) u),
     <[VString s := base.delete "id" (Object_assign (entity (VString s) row) u) ∪ row]> t).
Proof.
  intros Hrow Hu. rewrite (strict_update_present _ _ row) by done.
  rewrite default_own_id by done. by rewrite Hrow.
Qed.

Lemma union_keeps_id (k : value) (u1 u2 : object) :
  u1 !! "id" = None ∨ u1 !! "id" = Some k →
  u2 !! "id" = None ∨ u2 !! "id" = Some k →
  (u2 ∪ u1) !! "id" = None ∨ (u2 ∪ u1) !! "id" = Some k.
Proof.
  intros H1 H2. rewrite lookup_union.
  destruct H1 as [-> | ->], H2 as [-> | ->]; auto.
Qed.

End UpdateFacts.

(** X10: in src/modules/notes, after [update] on a payload that leaves the
    id alone, [findOne] on the id returns the very note [update] returned,
    and every other row of the table is as it was. *)
Theorem strict_update_is_read_back (t : Table) (s : string) (row u : object) :
  t !! VString s = Some row →
  u !! "id" = None ∨ u !! "id" = Some (VString s) →
  ∃ n t', modules_notes.NotesService.update s u t = (Fulfilled n, t')
          ∧ modules_notes.NotesService.findOne s t' = (Fulfilled n, t')
          ∧ ∀ k, k ≠ VString s → t' !! k = t !! k.
Proof.
  intros Hrow Hu. eexists _, _. split; [by apply strict_update_own_id|]. split.
  - erewrite strict_findOne_present by apply lookup_insert_eq.
    by rewrite entity_saved.
  - intros k Hk. by rewrite lookup_insert_ne.
Qed.

Lemma strict_update_is_read_back_witness :
  ∃ n t', modules_notes.NotesService.update "0" {[ "title" := VString "list" ]} strict_table
          = (Fulfilled n, t')
          ∧ modules_notes.NotesService.findOne "0" t' = (Fulfilled n, t')
          ∧ ∀ k, k ≠ VString "0" → t' !! k = strict_table !! k.
Proof.
  apply (strict_update_is_read_back strict_table "0" groceries); [reflexivity|].
  left. reflexivity.
Defined.

(** X11: in src/notes, [update] on a payload that sets something and leaves
    the id alone returns the note as it is stored afterwards: [findOne] on
    the id returns it again, and every other row of the table is as it
    was. *)
Theorem lax_update_is_read_back (t : Table) (z : Z) (row u : object) :
  t !! VNumber z = Some row →
  u ≠ ∅ →
  u !! "id" = None ∨ u !! "id" = Some (VNumber z) →
  ∃ n t', notes.NotesService.update z u t = (Fulfilled (Some n), t')
          ∧ notes.NotesService.findOne z t' = (Fulfilled (Some n), t')
          ∧ ∀ k, k ≠ VNumber z → t' !! k = t !! k.
Proof.
  intros Hrow Hne Hu. eexists _, _. split; [by apply lax_update_present|]. split.
  - rewrite lax_findOne, lookup_insert_eq. cbn [fmap option_fmap option_map].
    by rewrite entity_updated.
  - intros k Hk. by rewrite lookup_insert_ne.
Qed.

Lemma lax_update_is_read_back_witness :
  ∃ n t', notes.NotesService.update 1 {[ "title" := VString "list" ]} lax_table
          = (Fulfilled (Some n), t')
          ∧ notes.NotesService.findOne 1 t' = (Fulfilled (Some n), t')
          ∧ ∀ k, k ≠ VNumber 1 → t' !! k = lax_table !! k.
Proof.
  apply (lax_update_is_read_back lax_table 1 groceries);
    [reflexivity | discriminate | left; reflexivity].
Defined.

(** X12: [update] is idempotent on a payload that leaves the id alone: the
    same call again returns the same note and changes nothing more; in both
    services (in src/notes, for a payload that sets something). *)
Theorem update_is_idempotent
    (tA tB : Table) (s : string) (z : Z) (rowA rowB uA uB : object) :
  tA !! VString s = Some rowA →
  uA !! "id" = None ∨ uA !! "id" = Some (VString s) →
  tB !! VNumber z = Some rowB →
  uB ≠ ∅ →
  uB !! "id" = None ∨ uB !! "id" = Some (VNumber z) →
  (∃ n t', modules_notes.NotesService.update s uA tA = (Fulfilled n, t')
           ∧ modules_notes.NotesService.update s uA t' = (Fulfilled n, t'))
  ∧ (∃ n t', notes.NotesService.update z uB tB = (Fulfilled n, t')
             ∧ notes.NotesService.update z uB t' = (Fulfilled n, t')).
Proof.
  intros HA HuA HB HneB HuB. split.
  - eexists _, _. split; [by apply strict_update_own_id|].
    erewrite strict_update_own_id; [|apply lookup_insert_eq|done].
    rewrite entity_saved by done.
    by rewrite Object_assign_twice, union_absorb, insert_insert_eq.
  - eexists _, _. split; [by apply lax_update_present|].
    erewrite lax_update_present; [|done|apply lookup_insert_eq|done].
    rewrite entity_updated by done.
    by rewrite Object_assign_twice, union_absorb, insert_insert_eq.
Qed.

Lemma update_is_idempotent_witness :
  (∃ n t', modules_notes.NotesService.update "0" {[ "title" := VString "list" ]} strict_table
           = (Fulfilled n, t')
           ∧ modules_notes.NotesService.update "0" {[ "title" := VString "list" ]} t'
             = (Fulfilled n, t'))
  ∧ (∃ n t', notes.NotesService.update 1 {[ "title" := VString "list" ]} lax_table
             = (Fulfilled n, t')
             ∧ notes.NotesService.update 1 {[ "title" := VString "list" ]} t'
               = (Fulfilled n, t')).
Proof.
  apply (update_is_idempotent strict_table lax_table "0" 1 groceries groceries);
    [reflexivity | left; reflexivity | reflexivity | discriminate | left; reflexivity].
Defined.

Section UpdateComposition.

Import Repository.

Lemma Object_assign_assoc (n u1 u2 : object) :
  Object_assign (Object_assign n u1) u2 = Object_assign n (u2 ∪ u1).
Proof. unfold Object_assign. apply (assoc_L (∪)). Qed.

(** Writing a merged note over the row of an earlier merge is writing it
    over the row from before. *)
Lemma row_saved_twice (n u1 u2 row : object) :
  base.delete "id" (Object_assign (Object_assign n u1) u2)
    ∪ (base.delete "id" (Object_assign n u1) ∪ row)
  = base.delete "id" (Object_assign (Object_assign n u1) u2) ∪ row.
Proof.
  apply union_skip. intros f. destruct (decide (f = "id")) as [->|Hf].
  - by rewrite !lookup_delete_eq.
  - rewrite !lookup_delete_ne by done. unfold Object_assign.
    by intros [_ ?]%lookup_union_None.
Qed.

Lemma row_updated_twice (u1 u2 row : object) :
  base.delete "id" u2 ∪ (base.delete "id" u1 ∪ row) = base.delete "id" (u2 ∪ u1) ∪ row.
Proof. by rewrite delete_union, (assoc_L (∪)). Qed.

End UpdateComposition.

(** X13: in src/modules/notes two updates of a note in a row amount to one
    update with the second payload laid over the first: same note returned,
    same table; for payloads that leave the id alone. *)
Theorem strict_updates_compose (t : Table) (s : string) (row u1 u2 : object) :
  t !! VString s = Some row →
  u1 !! "id" = None ∨ u1 !! "id" = Some (VString s) →
  u2 !! "id" = None ∨ u2 !! "id" = Some (VString s) →
  ∃ n1 t1 n2 t2,
    modules_notes.NotesService.update s u1 t = (Fulfilled n1, t1)
    ∧ modules_notes.NotesService.update s u2 t1 = (Fulfilled n2, t2)
    ∧ modules_notes.NotesService.update s (u2 ∪ u1) t = (Fulfilled n2, t2).
Proof.
  intros Hrow Hu1 Hu2. eexists _, _, _, _.
  split; [by apply strict_update_own_id|].
  split; [apply strict_update_own_id; [apply lookup_insert_eq|done]|].
  rewrite (strict_update_own_id _ _ row) by (done || by apply union_keeps_id).
  rewrite entity_saved by done.
  by rewrite insert_insert_eq, row_saved_twice, Object_assign_assoc.
Qed.

Lemma strict_updates_compose_witness :
  ∃ n1 t1 n2 t2,
    modules_notes.NotesService.update "0" {[ "title" := VString "list" ]} strict_table
      = (Fulfilled n1, t1)
    ∧ modules_notes.NotesService.update "0" {[ "content" := VString "eggs" ]} t1
      = (Fulfilled n2, t2)
    ∧ modules_notes.NotesService.update "0"
        ({[ "content" := VString "eggs" ]} ∪ {[ "title" := VString "list" ]}) strict_table
      = (Fulfilled n2, t2).
Proof.
  apply (strict_updates_compose strict_table "0" groceries);
    [reflexivity | left; reflexivity | left; reflexivity].
Defined.

(** X14: the same in src/notes, for payloads that set something and leave
    the id alone. *)
Theorem lax_updates_compose (t : Table) (z : Z) (row u1 u2 : object) :
  t !! VNumber z = Some row →
  u1 ≠ ∅ → u1 !! "id" = None ∨ u1 !! "id" = Some (VNumber z) →
  u2 ≠ ∅ → u2 !! "id" = None ∨ u2 !! "id" = Some (VNumber z) →
  ∃ n1 t1 n2 t2,
    notes.NotesService.update z u1 t = (Fulfilled n1, t1)
    ∧ notes.NotesService.update z u2 t1 = (Fulfilled n2, t2)
    ∧ notes.NotesService.update z (u2 ∪ u1) t = (Fulfilled n2, t2).
Proof.
  intros Hrow Hne1 Hu1 Hne2 Hu2. eexists _, _, _, _.
  split; [by apply lax_update_present|].
  split; [apply lax_update_present; [done|apply lookup_insert_eq|done]|].
  rewrite (lax_update_present _ _ row);
    [|by apply map_positive_l_alt|done|by apply union_keeps_id].
  rewrite entity_updated by done.
  by rewrite insert_insert_eq, row_updated_twice, Object_assign_assoc.
Qed.

Lemma lax_updates_compose_witness :
  ∃ n1 t1 n2 t2,
    notes.NotesService.update 1 {[ "title" := VString "list" ]} lax_table
      = (Fulfilled n1, t1)
    ∧ notes.NotesService.update 1 {[ "content" := VString "eggs" ]} t1
      = (Fulfilled n2, t2)
    ∧ notes.NotesService.update 1
        ({[ "content" := VString "eggs" ]} ∪ {[ "title" := VString "list" ]}) lax_table
      = (Fulfilled n2, t2).
Proof.
  apply (lax_updates_compose lax_table 1 groceries);
    [reflexivity | discriminate | left; reflexivity | discriminate | left; reflexivity].
Defined.

(** ** Payloads that carry another id *)

Section ForeignId.

Import Repository.

(** The row an [UPDATE] moves to the key [k] reads back as the merged note. *)
Lemma entity_moved (k id : value) (row u : object) :
  u !! "id" = Some k →
  entity k (base.delete "id" u ∪ row) = Object_assign (entity id row) u.
Proof.
  intros Hu. apply map_eq. intros f. unfold Object_assign.
  destruct (decide (f = "id")) as [->|Hf].
  - by rewrite entity_id, lookup_union, Hu, entity_id.
  - rewrite entity_field, !lookup_union, entity_field by done.
    by rewrite lookup_delete_ne.
Qed.

Lemma entity_own_id (k : value) (n : object) :
  n !! "id" = Some k → entity k (base.delete "id" n) = n.
Proof. intros Hn. unfold entity. by rewrite insert_delete_eq, insert_id. Qed.

Lemma size_delete_present (t : Table) (k : value) (row : object) :
  t !! k = Some row → S (size (base.delete k t)) = size t.
Proof.
  intros Hrow. rewrite map_size_delete, Hrow. apply Nat.succ_pred.
  intros Hsize. apply map_size_empty_inv in Hsize. by subst t.
Qed.

(** [repository.update] on a payload that carries a free id. *)
Lemma Repository_update_moves (t : Table) (id k : value) (row u : object) :
  t !! id = Some row → u !! "id" = Some k → t !! k = None →
  Repository.update id u t
  = (Fulfilled 1%nat, <[k := base.delete "id" u ∪ row]> (base.delete id t)).
Proof.
  intros Hrow Hu Hk. unfold Repository.update.
  rewrite bool_decide_eq_false_2 by (intros ->; by rewrite lookup_empty in Hu).
  rewrite Hrow, Hu. change (default id (Some k)) with k.
  rewrite (bool_decide_eq_false_2 (is_Some _)) by (rewrite Hk; by intros [? ?]).
  by rewrite andb_false_r.
Qed.

End ForeignId.

(** X15: in src/modules/notes a payload carrying an id that no row has
    does not re-key the note, it copies it: the note returned has the new
    id and is persisted, the note under the old id is still read as it was,
    and the table has one row more. *)
Theorem strict_update_foreign_id_copies
    (t : Table) (s : string) (k : value) (row u : object) :
  t !! VString s = Some row →
  u !! "id" = Some k →
  t !! k = None →
  ∃ n t', modules_notes.NotesService.update s u t = (Fulfilled n, t')
          ∧ n !! "id" = Some k
          ∧ Repository.persisted t' n
          ∧ modules_notes.NotesService.findOne s t'
            = (Fulfilled (Repository.entity (VString s) row), t')
          ∧ size t' = S (size t).
Proof.
  intros Hrow Hu Hk. eexists _, _.
  split; [by apply (strict_update_present _ _ row)|].
  rewrite Hu. change (default (VString s) (Some k)) with k.
  rewrite Hk. change (default ∅ None) with (∅ : object). rewrite (right_id_L ∅ (∪)).
  assert (Object_assign (Repository.entity (VString s) row) u !! "id" = Some k) as Hid.
  { by rewrite Object_assign_id, Hu. }
  split; [done|]. split; [|split].
  - exists k, (delete "id" (Object_assign (Repository.entity (VString s) row) u)).
    split; [apply lookup_insert_eq|]. by rewrite entity_own_id.
  - apply strict_findOne_present. rewrite lookup_insert_ne; [done|]. congruence.
  - by apply map_size_insert_None.
Qed.

Lemma strict_update_foreign_id_copies_witness :
  ∃ n t', modules_notes.NotesService.update "0" {[ "id" := VString "9" ]} strict_table
          = (Fulfilled n, t')
          ∧ n !! "id" = Some (VString "9")
          ∧ Repository.persisted t' n
          ∧ modules_notes.NotesService.findOne "0" t'
            = (Fulfilled (Repository.entity (VString "0") groceries), t')
          ∧ size t' = S (size strict_table).
Proof.
  apply (strict_update_foreign_id_copies strict_table "0" (VString "9") groceries);
    reflexivity.
Defined.

(** X16: in src/notes the same payload re-keys the note: [update] resolves
    to [null], nothing is read under the old id any more, the merged note is
    persisted under the new id, and the table has as many rows as before. *)
Theorem lax_update_foreign_id_moves (t : Table) (z : Z) (k : value) (row u : object) :
  t !! VNumber z = Some row →
  u !! "id" = Some k →
  t !! k = None →
  ∃ t', notes.NotesService.update z u t = (Fulfilled None, t')
        ∧ notes.NotesService.findOne z t' = (Fulfilled None, t')
        ∧ Repository.persisted t' (Object_assign (Repository.entity (VNumber z) row) u)
        ∧ size t' = size t.
Proof.
  intros Hrow Hu Hk.
  assert (k ≠ VNumber z) as Hne by congruence.
  assert ((<[k := delete "id" u ∪ row]> (delete (VNumber z) t)) !! VNumber z = None) as Hgone.
  { rewrite lookup_insert_ne by done. apply lookup_delete_eq. }
  eexists. split; [|split; [|split]].
  - unfold notes.NotesService.update, mbind, Promise_bind, await.
    rewrite (Repository_update_moves _ _ k row) by done.
    by rewrite lax_findOne, Hgone.
  - by rewrite lax_findOne, Hgone.
  - exists k, (delete "id" u ∪ row). split; [apply lookup_insert_eq|].
    symmetry. by apply entity_moved.
  - rewrite map_size_insert_None by (by rewrite lookup_delete_ne).
    by apply (size_delete_present _ _ row).
Qed.

Lemma lax_update_foreign_id_moves_witness :
  ∃ t', notes.NotesService.update 1 {[ "id" := VNumber 2 ]} lax_table = (Fulfilled None, t')
        ∧ notes.NotesService.findOne 1 t' = (Fulfilled None, t')
        ∧ Repository.persisted t'
            (Object_assign (Repository.entity (VNumber 1) groceries) {[ "id" := VNumber 2 ]})
        ∧ size t' = size lax_table.
Proof.
  apply (lax_update_foreign_id_moves lax_table 1 (VNumber 2) groceries); reflexivity.
Defined.

(** ** The service of src/code-flow.md *)

Section GuideService.

Import Repository.

Variable ToString : Z → string.

Lemma guide_findOne_absent (t : Table) (z : Z) :
  t !! VNumber z = None →
  code_flow.NotesService.findOne ToString z t
  = (Rejected (NotFoundException (code_flow.NotesService.message ToString z)), t).
Proof.
  intros Hz. unfold code_flow.NotesService.findOne, mbind, Promise_bind, await,
    Repository.findOne, findOneBy.
  by rewrite Hz.
Qed.

Lemma guide_findOne_present (t : Table) (z : Z) (row : object) :
  t !! VNumber z = Some row →
  code_flow.NotesService.findOne ToString z t = (Fulfilled (entity (VNumber z) row), t).
Proof.
  intros Hz. unfold code_flow.NotesService.findOne, mbind, Promise_bind, await,
    Repository.findOne, findOneBy.
  by rewrite Hz.
Qed.

Lemma Repository_update_absent (t : Table) (id : value) (u : object) :
  u ≠ ∅ → t !! id = None → Repository.update id u t = (Fulfilled 0%nat, t).
Proof.
  intros Hu Hid. unfold Repository.update.
  rewrite bool_decide_eq_false_2 by done. by rewrite Hid.
Qed.

Lemma Repository_update_own_id (t : Table) (id : value) (row u : object) :
  u ≠ ∅ → t !! id = Some row → u !! "id" = None ∨ u !! "id" = Some id →
  Repository.update id u t = (Fulfilled 1%nat, <[id := base.delete "id" u ∪ row]> t).
Proof.
  intros Hne Hid Hu. unfold Repository.update.
  rewrite bool_decide_eq_false_2 by done. rewrite Hid, default_own_id by done.
  rewrite bool_decide_eq_false_2 by (by intros []). cbn [andb].
  by rewrite insert_delete_eq.
Qed.

End GuideService.

(** X17: the service of the guide fails with NotFound on an id that is not
    in the store, in [findOne], in [remove], and in [update] with a payload
    that sets something; the table is left as it was. *)
Theorem guide_absent_id (ToString : Z → string) (t : Table) (z : Z) (u : object) :
  t !! VNumber z = None →
  u ≠ ∅ →
  code_flow.NotesService.findOne ToString z t
    = (Rejected (NotFoundException (code_flow.NotesService.message ToString z)), t)
  ∧ code_flow.NotesService.update ToString z u t
    = (Rejected (NotFoundException (code_flow.NotesService.message ToString z)), t)
  ∧ code_flow.NotesService.remove ToString z t
    = (Rejected (NotFoundException (code_flow.NotesService.message ToString z)), t).
Proof.
  intros Hz Hu. split; [by apply guide_findOne_absent|]. split.
  - unfold code_flow.NotesService.update, mbind, Promise_bind, await.
    rewrite Repository_update_absent by done. by apply guide_findOne_absent.
  - unfold code_flow.NotesService.remove, mbind, Promise_bind, await.
    by rewrite guide_findOne_absent.
Qed.

Lemma guide_absent_id_witness :
  code_flow.NotesService.update pretty 7 {[ "title" := VString "list" ]} lax_table
  = (Rejected (NotFoundException "Note with ID 7 not found"), lax_table).
Proof.
  destruct (guide_absent_id pretty lax_table 7 {[ "title" := VString "list" ]})
    as (_ & Hupdate & _); [reflexivity | discriminate |].
  exact Hupdate.
Defined.

(** X18: in the service of the guide, [update] on a persisted note and a
    payload that sets something and leaves the id alone returns the merged
    note, and [findOne] returns it again afterwards. *)
Theorem guide_update_merges
    (ToString : Z → string) (t : Table) (z : Z) (row u : object) :
  t !! VNumber z = Some row →
  u ≠ ∅ →
  u !! "id" = None ∨ u !! "id" = Some (VNumber z) →
  ∃ n t', code_flow.NotesService.update ToString z u t = (Fulfilled n, t')
          ∧ merged (Repository.entity (VNumber z) row) u n
          ∧ code_flow.NotesService.findOne ToString z t' = (Fulfilled n, t').
Proof.
  intros Hrow Hne Hu.
  assert (code_flow.NotesService.findOne ToString z
            (<[VNumber z := delete "id" u ∪ row]> t)
          = (Fulfilled (Object_assign (Repository.entity (VNumber z) row) u),
             <[VNumber z := delete "id" u ∪ row]> t)) as Hfind.
  { erewrite guide_findOne_present by apply lookup_insert_eq.
    by rewrite entity_updated. }
  eexists _, _. split; [|split; [apply Object_assign_merged|exact Hfind]].
  unfold code_flow.NotesService.update, mbind, Promise_bind, await.
  by rewrite (Repository_update_own_id _ _ row).
Qed.

Lemma guide_update_merges_witness :
  ∃ n t', code_flow.NotesService.update pretty 1 {[ "title" := VString "list" ]} lax_table
          = (Fulfilled n, t')
          ∧ merged (Repository.entity (VNumber 1) groceries) {[ "title" := VString "list" ]} n
          ∧ code_flow.NotesService.findOne pretty 1 t' = (Fulfilled n, t').
Proof.
  apply (guide_update_merges pretty lax_table 1 groceries);
    [reflexivity | discriminate | left; reflexivity].
Defined.

(** X19: in the service of the guide the existence check of [update] comes
    after the write.  On a persisted note and a payload carrying an id that
    no row has, [update] fails with NotFound although it has written: the
    note is gone from the old id and persisted, merged, under the new one. *)
Theorem guide_update_fails_after_writing
    (ToString : Z → string) (t : Table) (z : Z) (k : value) (row u : object) :
  t !! VNumber z = Some row →
  u !! "id" = Some k →
  t !! k = None →
  ∃ t', code_flow.NotesService.update ToString z u t
        = (Rejected (NotFoundException (code_flow.NotesService.message ToString z)), t')
        ∧ t' ≠ t
        ∧ t' !! VNumber z = None
        ∧ Repository.persisted t' (Object_assign (Repository.entity (VNumber z) row) u).
Proof.
  intros Hrow Hu Hk.
  assert (k ≠ VNumber z) as Hne by congruence.
  assert ((<[k := delete "id" u ∪ row]> (delete (VNumber z) t)) !! VNumber z = None) as Hgone.
  { rewrite lookup_insert_ne by done. apply lookup_delete_eq. }
  eexists. split; [|split; [|split; [exact Hgone|]]].
  - unfold code_flow.NotesService.update, mbind, Promise_bind, await.
    rewrite (Repository_update_moves _ _ k row) by done.
    by apply guide_findOne_absent.
  - intros Heq. rewrite Heq in Hgone. congruence.
  - exists k, (delete "id" u ∪ row). split; [apply lookup_insert_eq|].
    symmetry. by apply entity_moved.
Qed.

Lemma guide_update_fails_after_writing_witness :
  ∃ t', code_flow.NotesService.update pretty 1 {[ "id" := VNumber 2 ]} lax_table
        = (Rejected (NotFoundException (code_flow.NotesService.message pretty 1)), t')
        ∧ t' ≠ lax_table
        ∧ t' !! VNumber 1 = None
        ∧ Repository.persisted t'
            (Object_assign (Repository.entity (VNumber 1) groceries) {[ "id" := VNumber 2 ]}).
Proof.
  apply (guide_update_fails_after_writing pretty lax_table 1 (VNumber 2) groceries);
    reflexivity.
Defined.

(** ** Creating over a persisted note *)

(** X20: [create] on an attribute set that carries the id of a persisted
    note creates nothing: it returns the attribute set, the note of that id
    becomes the attribute set merged over it, no other row changes and the
    table has as many rows as before; in both services. *)
Theorem create_with_persisted_id_updates
    (tA tB : Table) (s : string) (z : Z) (rowA rowB a b : object) :
  tA !! VString s = Some rowA → a !! "id" = Some (VString s) →
  tB !! VNumber z = Some rowB → b !! "id" = Some (VNumber z) →
  (∃ t', modules_notes.NotesService.create a tA = (Fulfilled a, t')
         ∧ modules_notes.NotesService.findOne s t'
           = (Fulfilled (Object_assign (Repository.entity (VString s) rowA) a), t')
         ∧ (∀ k, k ≠ VString s → t' !! k = tA !! k)
         ∧ size t' = size tA)
  ∧ (∃ t', notes.NotesService.create b tB = (Fulfilled b, t')
           ∧ notes.NotesService.findOne z t'
             = (Fulfilled (Some (Object_assign (Repository.entity (VNumber z) rowB) b)), t')
           ∧ (∀ k, k ≠ VNumber z → t' !! k = tB !! k)
           ∧ size t' = size tB).
Proof.
  intros HA Ha HB Hb. split.
  - exists (<[VString s := delete "id" a ∪ rowA]> tA). split; [|split; [|split]].
    + unfold modules_notes.NotesService.create, Repository.create, Repository.save.
      by rewrite Ha, HA.
    + erewrite strict_findOne_present by apply lookup_insert_eq.
      rewrite entity_updated; [done|by right].
    + intros k Hk. by rewrite lookup_insert_ne.
    + by apply map_size_insert_Some.
  - exists (<[VNumber z := delete "id" b ∪ rowB]> tB). split; [|split; [|split]].
    + unfold notes.NotesService.create, Repository.create, Repository.save.
      by rewrite Hb, HB.
    + rewrite lax_findOne, lookup_insert_eq. cbn [fmap option_fmap option_map].
      rewrite entity_updated; [done|by right].
    + intros k Hk. by rewrite lookup_insert_ne.
    + by apply map_size_insert_Some.
Qed.

Lemma create_with_persisted_id_updates_witness :
  ∃ t', notes.NotesService.create {[ "id" := VNumber 1; "title" := VString "list" ]} lax_table
        = (Fulfilled {[ "id" := VNumber 1; "title" := VString "list" ]}, t')
        ∧ notes.NotesService.findOne 1 t'
          = (Fulfilled (Some (Object_assign (Repository.entity (VNumber 1) groceries)
                                {[ "id" := VNumber 1; "title" := VString "list" ]})), t')
        ∧ (∀ k, k ≠ VNumber 1 → t' !! k = lax_table !! k)
        ∧ size t' = size lax_table.
Proof.
  apply (create_with_persisted_id_updates strict_table lax_table "0" 1 groceries groceries
           (<["id" := VString "0"]> groceries)); reflexivity.
Defined.

(** ** Narrowing the filter *)

Section Narrowing.

Import Repository.





End Narrowing.


